(** * Kurb BLE simulator: the helper engines and the BLE peripheral wrapper

    A shallow embedding of the four Python modules of the repository

      - [battery_engine.py]   (battery classification),
      - [state_machine.py]    (lock-state predicates),
      - [schedule_engine.py]  (schedule JSON accessors),
      - [ble_wrapper_stub.py] (the GATT read / write / notify glue),

    followed by the properties of the specification, each stated over
    these definitions.

    Python integers are [Z]; [bytes] values are [list byte]; [str] values
    are [string] (code points below 256); raised exceptions are a result
    constructor, so every function is total and says which exception
    leaves it. *)

From Stdlib Require Import ZArith List String Ascii Bool Lia.
From Stdlib Require Import Strings.Byte DecimalString.
Import ListNotations.

Local Open Scope string_scope.
Local Open Scope list_scope.
Local Open Scope Z_scope.

(* ------------------------------------------------------------------ *)
(** ** Python values and exceptions *)

Module Py.

(** The exception classes that the modelled code can raise.  [KeyError]
    carries the missing key; [OtherError] stands for whatever a
    collaborator outside these sources raises. *)
Inductive exn : Type :=
| IndexError
| ValueError
| TypeError
| KeyError (key : string)
| NotImplementedError
| OtherError (name : string).

(** The outcome of evaluating an expression: a value, or an exception. *)
Inductive outcome (A : Type) : Type :=
| Return (a : A)
| Raise (e : exn).
Arguments Return {A} a.
Arguments Raise {A} e.

Definition obind {A B} (m : outcome A) (k : A -> outcome B) : outcome B :=
  match m with
  | Return a => k a
  | Raise e => Raise e
  end.

Definition returns {A} (m : outcome A) : bool :=
  match m with Return _ => true | Raise _ => false end.

Definition bytes := list byte.

(** [bytes([n])]: one byte when [0 <= n < 256], [ValueError] otherwise. *)
Definition bytes_of_int (n : Z) : outcome bytes :=
  if (0 <=? n) && (n <? 256)
  then match Byte.of_N (Z.to_N n) with
       | Some b => Return [b]
       | None => Raise ValueError
       end
  else Raise ValueError.

(** [data[0]] on a [bytes] object: the first byte as an integer,
    [IndexError] on the empty object. *)
Definition bytes_first (data : bytes) : outcome Z :=
  match data with
  | [] => Raise IndexError
  | b :: _ => Return (Z.of_N (Byte.to_N b))
  end.

Definition byte_eqb (a b : byte) : bool := N.eqb (Byte.to_N a) (Byte.to_N b).

Fixpoint bytes_eqb (a b : bytes) : bool :=
  match a, b with
  | [], [] => true
  | x :: a', y :: b' => byte_eqb x y && bytes_eqb a' b'
  | _, _ => false
  end.

(** [x in xs] for a list of [bytes] objects. *)
Definition bytes_in (x : bytes) (xs : list bytes) : bool :=
  existsb (bytes_eqb x) xs.

(** Lower-case hexadecimal digits, as [bytes.hex()] and the [x]
    format code print them. *)
Definition hex_digit (n : N) : ascii :=
  if (n <? 10)%N then ascii_of_N (48 + n) else ascii_of_N (87 + n).

Definition byte_hex (b : byte) : string :=
  let n := Byte.to_N b in
  String (hex_digit (n / 16)) (String (hex_digit (n mod 16)) EmptyString).

(** [data.hex()] *)
Definition hex (data : bytes) : string :=
  fold_right (fun b s => String.append (byte_hex b) s) EmptyString data.

(** [f"{cmd:#04x}"] for [cmd] taken from a [bytes] object (0..255):
    the [0x] prefix and at least two digits in all. *)
Definition format_hash_04x (cmd : Z) : string :=
  let n := Z.to_N cmd in
  if (n <? 16)%N
  then String "0" (String "x" (String "0" (String (hex_digit n) EmptyString)))
  else String "0" (String "x"
         (String (hex_digit (n / 16)) (String (hex_digit (n mod 16)) EmptyString))).

(** [len(raw)] *)
Definition len {A} (l : list A) : Z := Z.of_nat (List.length l).

(** [s.encode()] on a string of code points below 128. *)
Definition encode (s : string) : bytes := list_byte_of_string s.

End Py.
Import Py.

(* ------------------------------------------------------------------ *)
(** ** battery_engine.py *)

Module battery_engine.

(** The four health tiers of the specification and the label that the
    code returns for each. *)
Inductive BatteryTier : Type := Normal | Low | Critical | Emergency.

Definition tier_label (t : BatteryTier) : string :=
  match t with
  | Normal => "normal"
  | Low => "low"
  | Critical => "critical"
  | Emergency => "emergency"
  end.

Definition classify_battery (percent : Z) : string :=
  if percent <=? 3 then "emergency"
  else if percent <=? 10 then "critical"
  else if percent <=? 20 then "low"
  else "normal".

End battery_engine.

(* ------------------------------------------------------------------ *)
(** ** state_machine.py *)

Module state_machine.

Definition is_locked (state : Z) : bool := state =? 1.

Definition is_unlocked (state : Z) : bool := state =? 0.

End state_machine.

(* ------------------------------------------------------------------ *)
(** ** JSON values, as [json.loads] builds them and [json.dumps] prints them *)

Module Json.

(** The Python objects a JSON document decodes to: [None], [bool],
    [int], [str], [list] and [dict] with [str] keys.  A [dict] keeps its
    insertion order, which [json.dumps] follows, so it is an
    association list; [float] is left out. *)
#[local] Unset Elimination Schemes.
Inductive value : Type :=
| JNull
| JBool (b : bool)
| JInt (n : Z)
| JStr (s : string)
| JList (items : list value)
| JDict (entries : list (string * value)).
#[local] Set Elimination Schemes.

(** [d.get(key)] on the entries of a [dict]. *)
Fixpoint dict_get (key : string) (entries : list (string * value)) : option value :=
  match entries with
  | [] => None
  | (k, v) :: rest => if String.eqb k key then Some v else dict_get key rest
  end.

(** [obj[key]] with a [str] key: the stored value for a [dict] that has
    the key, [KeyError] for a [dict] that lacks it, and [TypeError] for
    every object that is not a mapping ([None], numbers, [str] and
    [list] accept no [str] subscript). *)
Definition getitem (obj : value) (key : string) : outcome value :=
  match obj with
  | JDict entries =>
      match dict_get key entries with
      | Some v => Return v
      | None => Raise (KeyError key)
      end
  | _ => Raise TypeError
  end.

(** Truth value of an object, as [if obj:] tests it. *)
Definition truthy (obj : value) : bool :=
  match obj with
  | JNull => false
  | JBool b => b
  | JInt n => negb (n =? 0)
  | JStr s => negb (String.eqb s EmptyString)
  | JList items => match items with [] => false | _ => true end
  | JDict entries => match entries with [] => false | _ => true end
  end.

Definition dquote : ascii := "034"%char.
Definition backslash : ascii := "092"%char.

(** One character of a string literal under [ensure_ascii=True]. *)
Definition escape_char (c : ascii) : string :=
  let n := N_of_ascii c in
  if (n =? 34)%N then String backslash (String dquote EmptyString)
  else if (n =? 92)%N then String backslash (String backslash EmptyString)
  else if (n =? 8)%N then String backslash "b"
  else if (n =? 12)%N then String backslash "f"
  else if (n =? 10)%N then String backslash "n"
  else if (n =? 13)%N then String backslash "r"
  else if (n =? 9)%N then String backslash "t"
  else if ((32 <=? n) && (n <=? 126))%N then String c EmptyString
  else String backslash
         (String "u" (String "0" (String "0"
            (String (hex_digit (n / 16)) (String (hex_digit (n mod 16)) EmptyString))))).

Fixpoint escape (s : string) : string :=
  match s with
  | EmptyString => EmptyString
  | String c rest => String.append (escape_char c) (escape rest)
  end.

Definition quoted (s : string) : string :=
  String dquote (String.append (escape s) (String dquote EmptyString)).

(** [", ".join(parts)] *)
Fixpoint join_comma (parts : list string) : string :=
  match parts with
  | [] => EmptyString
  | [p] => p
  | p :: rest => String.append p (String.append ", " (join_comma rest))
  end.

(** [json.dumps(obj)] with the default separators. *)
Fixpoint dumps (obj : value) : string :=
  match obj with
  | JNull => "null"
  | JBool true => "true"
  | JBool false => "false"
  | JInt n => NilZero.string_of_int (Z.to_int n)
  | JStr s => quoted s
  | JList items =>
      String.append "[" (String.append (join_comma (map dumps items)) "]")
  | JDict entries =>
      String.append "{"
        (String.append
           (join_comma
              (map (fun kv => String.append (quoted (fst kv))
                                (String.append ": " (dumps (snd kv))))
                   entries))
           "}")
  end.

End Json.
Import Json.

(* ------------------------------------------------------------------ *)
(** ** schedule_engine.py *)

Module schedule_engine.

Definition parse_daily_limit (schedule_json : value) : outcome value :=
  obind (getitem schedule_json "daily_limit")
        (fun daily_limit => getitem daily_limit "max_unlocks").

Definition parse_time_windows (schedule_json : value) : outcome value :=
  getitem schedule_json "windows".

End schedule_engine.

(* ------------------------------------------------------------------ *)
(** ** ble_wrapper_stub.py *)

Module ble_wrapper_stub.

(** The attribute identifiers come from [ble_constants.py], which is not
    among the sources: the wrapper is parameterised by them. *)
Class ble_constants : Type := {
  SERVICE_UUID : string;
  CHAR_LOCK_STATE : string;
  CHAR_LOCK_COMMAND : string;
  CHAR_SCHEDULE : string;
  CHAR_TIMESYNC : string;
  CHAR_BATTERY : string;
  CHAR_NEXT_UNLOCK : string;
  CHAR_EVENT : string
}.

(** Modelled from the spec: the [KurbSimulator] class of [kurb_logic.py]
    is missing from the sources.  Its fields are the three that the
    wrapper reads ([lock_state], [battery], [schedule]; an unset
    schedule is any falsy object) and the per-day unlock counter that
    the specification gives the lock state machine. *)
Record KurbSimulator : Type := {
  lock_state : Z;
  battery : Z;
  schedule : value;
  unlock_counter : Z
}.

(** [KurbSimulator.on_write(uuid, data)], also missing: any function that
    updates the simulator object and returns or raises. *)
Class kurb_logic : Type := {
  sim_on_write : string -> bytes -> KurbSimulator -> outcome unit * KurbSimulator
}.

(** The OS-specific body of [send_notification], which the class leaves
    to its user: the lines it prints and whether it returns or raises. *)
Class ble_backend : Type := {
  os_send_notification : string -> bytes -> list string * outcome unit
}.

(** The method as the template has it: one printed line, then
    [NotImplementedError]. *)
Definition template_backend : ble_backend := {|
  os_send_notification uuid data :=
    ([String.append "[BLE Notify] "
        (String.append uuid (String.append ": " (hex data)))],
     Raise NotImplementedError)
|}.

(** The peripheral object together with what it does to the outside:
    the lines printed so far and the calls made to [send_notification]
    so far, oldest first.  The [ble_server] attribute is set to [None]
    and never read; it has no field here. *)
Record peripheral : Type := {
  sim : KurbSimulator;
  char_values : list (string * bytes);
  device_connected : bool;
  stdout : list string;
  notifications : list (string * bytes)
}.

(** A handler is a state transformer that returns or raises; what a
    handler did before raising stays done.  The coroutines are awaited
    one after the other, so [await] is plain sequencing. *)
Definition handler (A : Type) : Type := peripheral -> outcome A * peripheral.

Definition ret {A} (a : A) : handler A := fun st => (Return a, st).

Definition bind {A B} (m : handler A) (k : A -> handler B) : handler B :=
  fun st =>
    match m st with
    | (Return a, st') => k a st'
    | (Raise e, st') => (Raise e, st')
    end.

Definition eval {A} (o : outcome A) : handler A := fun st => (o, st).

Declare Scope handler_scope.
Delimit Scope handler_scope with handler.
Notation "x <- m ;; k" := (bind m (fun x => k))
  (at level 100, m at next level, right associativity) : handler_scope.
Notation "m ;; k" := (bind m (fun _ => k))
  (at level 100, right associativity) : handler_scope.
Local Open Scope handler_scope.

Definition print (line : string) : handler unit :=
  fun st =>
    (Return tt,
     {| sim := sim st; char_values := char_values st;
        device_connected := device_connected st;
        stdout := stdout st ++ [line];
        notifications := notifications st |}).

Definition self_sim : handler KurbSimulator := fun st => (Return (sim st), st).

Section Wrapper.
Context {constants : ble_constants} {logic : kurb_logic} {backend : ble_backend}.

(** [__init__], given the freshly built simulator. *)
Definition init (fresh : KurbSimulator) : outcome peripheral :=
  obind (bytes_of_int (lock_state fresh)) (fun ls =>
  obind (bytes_of_int (battery fresh)) (fun bat =>
  Return {| sim := fresh;
            char_values := [(CHAR_LOCK_STATE, ls); (CHAR_BATTERY, bat);
                            (CHAR_NEXT_UNLOCK, [x00; x00; x00; x00])];
            device_connected := false;
            stdout := [];
            notifications := [] |})).

(** [await self.sim.on_write(uuid, data)] *)
Definition sim_write (uuid : string) (data : bytes) : handler unit :=
  fun st =>
    let (r, sim') := sim_on_write uuid data (sim st) in
    (r,
     {| sim := sim'; char_values := char_values st;
        device_connected := device_connected st;
        stdout := stdout st;
        notifications := notifications st |}).

(** [await self.send_notification(uuid, data)]: the call is recorded,
    then the backend decides how it ends. *)
Definition send_notification (uuid : string) (data : bytes) : handler unit :=
  fun st =>
    let (lines, r) := os_send_notification uuid data in
    (r,
     {| sim := sim st; char_values := char_values st;
        device_connected := device_connected st;
        stdout := stdout st ++ lines;
        notifications := notifications st ++ [(uuid, data)] |}).

Definition on_write_lock_command (data : bytes) : handler unit :=
  cmd <- eval (bytes_first data) ;;
  print (String.append "[BLE] Received LockCommand: " (format_hash_04x cmd)) ;;
  sim_write CHAR_LOCK_COMMAND data ;;
  s <- self_sim ;;
  payload <- eval (bytes_of_int (lock_state s)) ;;
  send_notification CHAR_LOCK_STATE payload.

Definition on_write_schedule (data : bytes) : handler unit :=
  print "[BLE] Received ScheduleConfig write" ;;
  sim_write CHAR_SCHEDULE data.

Definition on_write_timesync (data : bytes) : handler unit :=
  print "[BLE] Received TimeSync write" ;;
  sim_write CHAR_TIMESYNC data.

Definition on_logic_event (event_code : bytes) : handler unit :=
  print (String.append "[LOGIC EVENT] " (hex event_code)) ;;
  send_notification CHAR_EVENT event_code ;;
  if bytes_in event_code [[x01]; [x02]; [x09]]
  then s <- self_sim ;;
       payload <- eval (bytes_of_int (lock_state s)) ;;
       send_notification CHAR_LOCK_STATE payload
  else ret tt.

Definition on_read (uuid : string) : handler bytes :=
  print (String.append "[BLE] read request for " uuid) ;;
  if String.eqb uuid CHAR_LOCK_STATE then
    s <- self_sim ;; eval (bytes_of_int (lock_state s))
  else if String.eqb uuid CHAR_BATTERY then
    s <- self_sim ;; eval (bytes_of_int (battery s))
  else if String.eqb uuid CHAR_NEXT_UNLOCK then
    ret [x00; x00; x00; x00]
  else if String.eqb uuid CHAR_SCHEDULE then
    s <- self_sim ;;
    if truthy (schedule s) then
      let raw := encode (dumps (schedule s)) in
      let length := len raw in
      prefix <- eval (bytes_of_int length) ;;
      ret (prefix ++ raw)
    else eval (bytes_of_int 0)
  else eval (bytes_of_int 0).

End Wrapper.

(** The OS-specific bodies of [start_advertising], [stop_advertising]
    and [set_characteristic_handlers], which the class leaves to its
    user: each may do anything to the peripheral and return or raise. *)
Class ble_lifecycle : Type := {
  os_start_advertising : handler unit;
  os_stop_advertising : handler unit;
  os_set_characteristic_handlers : handler unit
}.

(** The three methods as the template has them: each raises
    [NotImplementedError] at once. *)
Definition template_lifecycle : ble_lifecycle := {|
  os_start_advertising st := (Raise NotImplementedError, st);
  os_stop_advertising st := (Raise NotImplementedError, st);
  os_set_characteristic_handlers st := (Raise NotImplementedError, st)
|}.

(** How far a coroutine got: it ended, by returning or raising, or it
    sits in a loop that has no exit ([while True: await
    asyncio.sleep(1)]).  Cancelling the task from outside is not part of
    the model. *)
Inductive run (A : Type) : Type :=
| Ended (result : outcome A) (st : peripheral)
| Looping (st : peripheral).
Arguments Ended {A} result st.
Arguments Looping {A} st.

(** [except KeyboardInterrupt]: the one exception class that [main]
    catches, carried by [OtherError] under its name. *)
Definition is_keyboard_interrupt (e : exn) : bool :=
  match e with
  | OtherError name => String.eqb name "KeyboardInterrupt"
  | _ => false
  end.

Section Lifecycle.
Context {constants : ble_constants} {lifecycle : ble_lifecycle}.

Definition start (st : peripheral) : run unit :=
  match (print "[BLE] Starting BLE peripheral wrapper..." ;;
         os_start_advertising ;;
         os_set_characteristic_handlers ;;
         print "[BLE] Advertising as Kurb_V1_Sim") st with
  | (Return _, st') => Looping st'
  | (Raise e, st') => Ended (Raise e) st'
  end.

Definition stop : handler unit :=
  os_stop_advertising ;;
  print "[BLE] Stopped BLE peripheral.".

(** [main()], given the simulator that [KurbSimulator()] builds.  The
    [finally] clause awaits [stop] whenever [start] ends; what [stop]
    raises replaces what [start] raised. *)
Definition main (fresh : KurbSimulator) : outcome (run unit) :=
  obind (init fresh) (fun ble =>
    Return
      match start ble with
      | Looping st => Looping st
      | Ended (Return _) st =>
          let (stopped, st') := stop st in Ended stopped st'
      | Ended (Raise e) st =>
          if is_keyboard_interrupt e then
            let (stopped, st') :=
              (print (String "010" "[BLE] Keyboard interrupt received. Stopping...") ;;
               stop) st in
            Ended stopped st'
          else
            match stop st with
            | (Return _, st') => Ended (Raise e) st'
            | (Raise e', st') => Ended (Raise e') st'
            end
      end).

End Lifecycle.

End ble_wrapper_stub.

Import battery_engine state_machine schedule_engine ble_wrapper_stub.

(* ------------------------------------------------------------------ *)
(** ** Sample configuration

    Concrete identifiers, collaborators and objects on which the
    properties below are evaluated.  The identifiers are placeholders for
    those of [ble_constants.py]; they are pairwise distinct. *)

Definition sample_constants : ble_constants := {|
  SERVICE_UUID := "4b550000-0000-1000-8000-00805f9b34fb";
  CHAR_LOCK_STATE := "4b550001-0000-1000-8000-00805f9b34fb";
  CHAR_LOCK_COMMAND := "4b550002-0000-1000-8000-00805f9b34fb";
  CHAR_SCHEDULE := "4b550003-0000-1000-8000-00805f9b34fb";
  CHAR_TIMESYNC := "4b550004-0000-1000-8000-00805f9b34fb";
  CHAR_BATTERY := "4b550005-0000-1000-8000-00805f9b34fb";
  CHAR_NEXT_UNLOCK := "4b550006-0000-1000-8000-00805f9b34fb";
  CHAR_EVENT := "4b550007-0000-1000-8000-00805f9b34fb"
|}.

(** A backend whose [send_notification] override delivers silently. *)
Definition accepting_backend : ble_backend := {|
  os_send_notification _ _ := ([], Return tt)
|}.

(** A simulator whose [on_write] accepts every write and changes nothing. *)
Definition idle_logic : kurb_logic := {|
  sim_on_write _ _ s := (Return tt, s)
|}.

Definition window (start stop : string) : value :=
  JDict [("start", JStr start); ("end", JStr stop)].

(** [{"daily_limit": {"max_unlocks": 3}, "windows": [{"start": "09:00",
    "end": "17:00"}]}] *)
Definition office_hours : value :=
  JDict [("daily_limit", JDict [("max_unlocks", JInt 3)]);
         ("windows", JList [window "09:00" "17:00"])].

(** The same limit with eight windows, one every three hours. *)
Definition eight_windows : value :=
  JDict [("daily_limit", JDict [("max_unlocks", JInt 3)]);
         ("windows",
          JList [window "00:00" "01:00"; window "03:00" "04:00";
                 window "06:00" "07:00"; window "09:00" "10:00";
                 window "12:00" "13:00"; window "15:00" "16:00";
                 window "18:00" "19:00"; window "21:00" "22:00"])].

Definition simulator_with (s : value) : KurbSimulator :=
  {| lock_state := 1; battery := 87; schedule := s; unlock_counter := 2 |}.

Definition peripheral_with (s : value) : peripheral :=
  {| sim := simulator_with s;
     char_values := [];
     device_connected := true;
     stdout := [];
     notifications := [] |}.

(** The calls to [send_notification] that one event code gives rise to
    when the lock-state byte is [lock_byte]. *)
Definition calls_for {constants : ble_constants}
    (lock_byte : bytes) (event_code : bytes) : list (string * bytes) :=
  (CHAR_EVENT, event_code)
  :: (if bytes_in event_code [[x01]; [x02]; [x09]]
      then [(CHAR_LOCK_STATE, lock_byte)]
      else []).

(** A simulator that refuses every write. *)
Definition refusing_logic : kurb_logic := {|
  sim_on_write _ _ s := (Raise (OtherError "RuntimeError"), s)
|}.

(** A simulator that unlocks (lock state 0) on every write. *)
Definition unlocking_logic : kurb_logic := {|
  sim_on_write _ _ s :=
    (Return tt,
     {| lock_state := 0; battery := battery s; schedule := schedule s;
        unlock_counter := unlock_counter s |})
|}.

(** How bad a tier is: the order in which the tiers follow each other as
    the battery drains. *)
Definition severity (t : BatteryTier) : Z :=
  match t with
  | Normal => 0
  | Low => 1
  | Critical => 2
  | Emergency => 3
  end.

(** [values.get(uuid)] on the characteristic store: in a [dict] a later
    binding of a key replaces an earlier one. *)
Definition stored_value (uuid : string) (values : list (string * bytes)) : option bytes :=
  fold_left (fun found kv => if String.eqb (fst kv) uuid then Some (snd kv) else found)
            values None.

(** Printable ASCII: the characters from the space to the tilde. *)
Definition printable_char (c : ascii) : bool :=
  ((32 <=? N_of_ascii c) && (N_of_ascii c <=? 126))%N.

Fixpoint printable (s : string) : bool :=
  match s with
  | EmptyString => true
  | String c rest => printable_char c && printable rest
  end.

Definition printable_byte (b : byte) : bool :=
  ((32 <=? Byte.to_N b) && (Byte.to_N b <=? 126))%N.

(** Proof steps shared by the properties below. *)

Ltac classify_cases percent :=
  unfold classify_battery;
  destruct (Z.leb_spec percent 3); [ | destruct (Z.leb_spec percent 10);
    [ | destruct (Z.leb_spec percent 20) ] ];
  simpl; try reflexivity; try lia.

(** Unfold the handler combinators and run the handler as far as the
    state allows. *)
Ltac run_handler :=
  cbv [bind ret eval print self_sim send_notification sim_write
       fst snd sim char_values device_connected stdout notifications].

(** Name the fields of a peripheral, in the goal and the hypotheses. *)
Ltac open_peripheral st :=
  destruct st as [s values connected printed calls];
  cbn [sim char_values device_connected stdout notifications] in *.

(** Split on the next test or outcome that the handler inspects. *)
Ltac branch :=
  match goal with
  | |- context [if ?c then _ else _] => destruct c eqn:?
  | |- context [match ?o with Return _ => _ | Raise _ => _ end] => destruct o eqn:?
  | |- context [let (_, _) := ?p in _] => destruct p eqn:?
  end; cbv [fst snd sim char_values device_connected stdout notifications].

(** Split on the outcome of the next call that the handler makes. *)
Ltac call_outcome :=
  match goal with
  | |- context [bytes_first ?d] => destruct (bytes_first d)
  | |- context [sim_on_write ?u ?d ?s] =>
      destruct (sim_on_write u d s) as [[[]|?] ?]
  | |- context [os_send_notification ?u ?d] =>
      destruct (os_send_notification u d) as [? [[]|?]]
  | |- context [bytes_of_int ?n] => destruct (bytes_of_int n)
  | |- context [if ?c then _ else _] => destruct c
  end.

(* ------------------------------------------------------------------ *)
(** ** battery_engine: properties *)

Lemma tier_label_inj (t u : BatteryTier) : tier_label t = tier_label u -> t = u.
Proof. destruct t, u; simpl; intro H; first [ reflexivity | discriminate H ]. Qed.

Lemma classify_battery_is_label (percent : Z) :
  exists t, classify_battery percent = tier_label t.
Proof.
  unfold classify_battery.
  destruct (percent <=? 3); [ now exists Emergency | ].
  destruct (percent <=? 10); [ now exists Critical | ].
  destruct (percent <=? 20); [ now exists Low | now exists Normal ].
Qed.

(** C3. For every battery percentage in 0..100, [classify_battery] returns
    exactly one tier, following the inclusive ascending boundaries:
    at most 3 is Emergency, above 3 and at most 10 is Critical, above 10
    and at most 20 is Low, everything above 20 is Normal. *)
Theorem classify_battery_boundaries (percent : Z) :
  0 <= percent <= 100 ->
  (percent <= 3 -> classify_battery percent = tier_label Emergency) /\
  (3 < percent <= 10 -> classify_battery percent = tier_label Critical) /\
  (10 < percent <= 20 -> classify_battery percent = tier_label Low) /\
  (20 < percent -> classify_battery percent = tier_label Normal) /\
  (exists t, classify_battery percent = tier_label t /\
             forall u, classify_battery percent = tier_label u -> u = t).
Proof.
  intros _.
  repeat split; try (intro; classify_cases percent).
  destruct (classify_battery_is_label percent) as [t Ht].
  exists t. split; [ exact Ht | ].
  intros u Hu. apply tier_label_inj. congruence.
Qed.

Lemma classify_battery_boundaries_witness :
  classify_battery 10 = tier_label Critical /\
  classify_battery 20 = tier_label Low.
Proof.
  split.
  - apply (classify_battery_boundaries 10); lia.
  - apply (classify_battery_boundaries 20); lia.
Defined.

(** The spot value claimed for 4 does not hold: 4 is not Low. *)
Lemma classify_battery_4_not_low : classify_battery 4 <> tier_label Low.
Proof. vm_compute. discriminate. Qed.

(** C4 (amended). The boundary spot values of the classifier: 0 and 3 are
    Emergency, 4 and 10 are Critical, 11 and 20 are Low, 21 is Normal. *)
Theorem classify_battery_spot_values :
  classify_battery 3 = tier_label Emergency /\
  classify_battery 4 = tier_label Critical /\
  classify_battery 10 = tier_label Critical /\
  classify_battery 11 = tier_label Low /\
  classify_battery 20 = tier_label Low /\
  classify_battery 21 = tier_label Normal /\
  classify_battery 0 = tier_label Emergency.
Proof. repeat split. Qed.

(** C9. [classify_battery] does no clamping and no range check: it gives a
    tier for every integer, Emergency below 0 and Normal above 100. *)
Theorem classify_battery_outside_range (percent : Z) :
  (exists t, classify_battery percent = tier_label t) /\
  (percent < 0 -> classify_battery percent = tier_label Emergency) /\
  (100 < percent -> classify_battery percent = tier_label Normal).
Proof.
  split; [ apply classify_battery_is_label | ].
  split; intro; classify_cases percent.
Qed.

Lemma classify_battery_outside_range_witness :
  classify_battery (-7) = tier_label Emergency /\
  classify_battery 250 = tier_label Normal.
Proof.
  split.
  - apply (classify_battery_outside_range (-7)). lia.
  - apply (classify_battery_outside_range 250). lia.
Defined.

(* ------------------------------------------------------------------ *)
(** ** state_machine: properties *)

(** With 0 read as Locked, [is_locked] would have to hold at 0; it does
    not. *)
Lemma is_locked_0_fails : ~ (is_locked 0 = true <-> 0 = 0).
Proof. intros [_ H]. specialize (H eq_refl). discriminate H. Qed.

(** C2 (amended). [is_locked state] holds exactly when [state = 1] and
    [is_unlocked state] exactly when [state = 0]: the helpers read 1 as
    Locked and 0 as Unlocked. *)
Theorem lock_predicates_encoding (state : Z) :
  (is_locked state = true <-> state = 1) /\
  (is_unlocked state = true <-> state = 0).
Proof. unfold is_locked, is_unlocked. split; apply Z.eqb_eq. Qed.

(* ------------------------------------------------------------------ *)
(** ** schedule_engine: properties *)

(** A schedule whose [daily_limit] is a bare number lacks [max_unlocks],
    and the parser leaves with [TypeError], not [KeyError]. *)
Lemma parse_daily_limit_flat_limit_type_error :
  dict_get "daily_limit" [("daily_limit", JInt 5)] = Some (JInt 5) /\
  parse_daily_limit (JDict [("daily_limit", JInt 5)]) = Raise TypeError /\
  forall key, parse_daily_limit (JDict [("daily_limit", JInt 5)]) <> Raise (KeyError key).
Proof. repeat split. intros key H. discriminate H. Qed.

(** C10 (amended). The parsers validate nothing.  On a dict without
    ["daily_limit"], or whose ["daily_limit"] is a dict without
    ["max_unlocks"], [parse_daily_limit] raises [KeyError]; on a dict
    without ["windows"], [parse_time_windows] raises [KeyError]; where the
    subscripted object is not a dict (the ["daily_limit"] value, or the
    schedule itself) the exception is [TypeError]; when the keys are
    present each returns exactly the stored value. *)
Theorem schedule_parsers_partial (entries : list (string * value)) :
  (dict_get "daily_limit" entries = None ->
   parse_daily_limit (JDict entries) = Raise (KeyError "daily_limit")) /\
  (forall inner,
     dict_get "daily_limit" entries = Some (JDict inner) ->
     dict_get "max_unlocks" inner = None ->
     parse_daily_limit (JDict entries) = Raise (KeyError "max_unlocks")) /\
  (forall limit,
     dict_get "daily_limit" entries = Some limit ->
     (forall inner, limit <> JDict inner) ->
     parse_daily_limit (JDict entries) = Raise TypeError) /\
  (forall inner stored,
     dict_get "daily_limit" entries = Some (JDict inner) ->
     dict_get "max_unlocks" inner = Some stored ->
     parse_daily_limit (JDict entries) = Return stored) /\
  (dict_get "windows" entries = None ->
   parse_time_windows (JDict entries) = Raise (KeyError "windows")) /\
  (forall stored,
     dict_get "windows" entries = Some stored ->
     parse_time_windows (JDict entries) = Return stored) /\
  (forall other,
     (forall fields, other <> JDict fields) ->
     parse_daily_limit other = Raise TypeError /\
     parse_time_windows other = Raise TypeError).
Proof.
  unfold parse_daily_limit, parse_time_windows, getitem, obind.
  split; [ | split; [ | split; [ | split; [ | split; [ | split ] ] ] ] ].
  - intros ->. reflexivity.
  - intros inner -> ->. reflexivity.
  - intros limit -> Hnot. destruct limit; try reflexivity.
    exfalso. eapply Hnot. reflexivity.
  - intros inner stored -> ->. reflexivity.
  - intros ->. reflexivity.
  - intros stored ->. reflexivity.
  - intros other Hnot. destruct other; try (split; reflexivity).
    exfalso. eapply Hnot. reflexivity.
Qed.

Lemma schedule_parsers_partial_witness :
  parse_daily_limit (JDict [("windows", JList [])]) = Raise (KeyError "daily_limit") /\
  parse_daily_limit office_hours = Return (JInt 3) /\
  parse_time_windows office_hours = Return (JList [window "09:00" "17:00"]).
Proof.
  split; [ | split ].
  - apply (schedule_parsers_partial [("windows", JList [])]). reflexivity.
  - apply (schedule_parsers_partial
             [("daily_limit", JDict [("max_unlocks", JInt 3)]);
              ("windows", JList [window "09:00" "17:00"])])
      with (inner := [("max_unlocks", JInt 3)]); reflexivity.
  - apply (schedule_parsers_partial
             [("daily_limit", JDict [("max_unlocks", JInt 3)]);
              ("windows", JList [window "09:00" "17:00"])]).
    reflexivity.
Defined.

(* ------------------------------------------------------------------ *)
(** ** ble_wrapper_stub: reads *)

(** The one-window schedule serialises to 84 bytes, so its length prefix
    is the byte 0x54. *)
Example office_hours_read :
  fst (@on_read sample_constants (@CHAR_SCHEDULE sample_constants)
         (peripheral_with office_hours))
  = Return (x54 :: encode (dumps office_hours)) /\
  len (encode (dumps office_hours)) = 84.
Proof. split; reflexivity. Qed.

Lemma bytes_of_int_0 : bytes_of_int 0 = Return [x00].
Proof. reflexivity. Qed.

(** Every read prints its request line and nothing else. *)
Lemma on_read_prints {constants : ble_constants} (uuid : string) (st : peripheral) :
  stdout (snd (on_read uuid st)) =
  stdout st ++ [String.append "[BLE] read request for " uuid].
Proof. open_peripheral st. unfold on_read. run_handler. repeat branch; reflexivity. Qed.

(** C7. A read of an identifier that is none of the attributes [on_read]
    recognises returns the single byte 0x00; it does not raise. *)
Theorem on_read_unrecognized {constants : ble_constants}
    (uuid : string) (st : peripheral) :
  uuid <> CHAR_LOCK_STATE ->
  uuid <> CHAR_BATTERY ->
  uuid <> CHAR_NEXT_UNLOCK ->
  uuid <> CHAR_SCHEDULE ->
  fst (on_read uuid st) = Return [x00].
Proof.
  intros H1 H2 H3 H4.
  apply String.eqb_neq in H1, H2, H3, H4.
  open_peripheral st. unfold on_read. run_handler.
  rewrite H1, H2, H3, H4. reflexivity.
Qed.

Lemma on_read_unrecognized_witness :
  fst (@on_read sample_constants "4b55ffff-0000-1000-8000-00805f9b34fb"
         (peripheral_with office_hours)) = Return [x00].
Proof.
  apply (@on_read_unrecognized sample_constants); intro H; discriminate H.
Defined.

(** C8. Whatever the identifier, and whether it returns or raises, a read
    leaves the lock state, the battery level and the stored schedule as
    they were. *)
Theorem on_read_preserves_simulator {constants : ble_constants}
    (uuid : string) (st : peripheral) :
  lock_state (sim (snd (on_read uuid st))) = lock_state (sim st) /\
  battery (sim (snd (on_read uuid st))) = battery (sim st) /\
  schedule (sim (snd (on_read uuid st))) = schedule (sim st).
Proof.
  assert (Hsim : sim (snd (on_read uuid st)) = sim st).
  { open_peripheral st. unfold on_read. run_handler. repeat branch; reflexivity. }
  rewrite Hsim. repeat split.
Qed.

(** A read of the schedule attribute when the schedule is set and its
    serialisation fits the one-byte length prefix. *)
Lemma on_read_schedule_set {constants : ble_constants}
    (st : peripheral) (prefix : bytes) :
  CHAR_SCHEDULE <> CHAR_LOCK_STATE ->
  CHAR_SCHEDULE <> CHAR_BATTERY ->
  CHAR_SCHEDULE <> CHAR_NEXT_UNLOCK ->
  truthy (schedule (sim st)) = true ->
  bytes_of_int (len (encode (dumps (schedule (sim st))))) = Return prefix ->
  fst (on_read CHAR_SCHEDULE st) = Return (prefix ++ encode (dumps (schedule (sim st)))).
Proof.
  intros H1 H2 H3 Hset Hlen.
  apply String.eqb_neq in H1, H2, H3.
  open_peripheral st. unfold on_read. run_handler.
  rewrite H1, H2, H3, String.eqb_refl, Hset, Hlen. reflexivity.
Qed.

(** A read of the schedule attribute when no schedule is set. *)
Lemma on_read_schedule_unset {constants : ble_constants} (st : peripheral) :
  CHAR_SCHEDULE <> CHAR_LOCK_STATE ->
  CHAR_SCHEDULE <> CHAR_BATTERY ->
  CHAR_SCHEDULE <> CHAR_NEXT_UNLOCK ->
  truthy (schedule (sim st)) = false ->
  fst (on_read CHAR_SCHEDULE st) = Return [x00].
Proof.
  intros H1 H2 H3 Hunset.
  apply String.eqb_neq in H1, H2, H3.
  open_peripheral st. unfold on_read. run_handler.
  rewrite H1, H2, H3, String.eqb_refl, Hunset. reflexivity.
Qed.

(** A set schedule whose serialisation is longer than 255 bytes cannot be
    read: the length prefix does not fit a byte. *)
Lemma on_read_schedule_too_long {constants : ble_constants} (st : peripheral) :
  CHAR_SCHEDULE <> CHAR_LOCK_STATE ->
  CHAR_SCHEDULE <> CHAR_BATTERY ->
  CHAR_SCHEDULE <> CHAR_NEXT_UNLOCK ->
  truthy (schedule (sim st)) = true ->
  255 < len (encode (dumps (schedule (sim st)))) ->
  fst (on_read CHAR_SCHEDULE st) = Raise ValueError.
Proof.
  intros H1 H2 H3 Hset Hlen.
  apply String.eqb_neq in H1, H2, H3.
  open_peripheral st. unfold on_read. run_handler.
  rewrite H1, H2, H3, String.eqb_refl, Hset.
  unfold bytes_of_int.
  replace (len (encode (dumps (schedule s))) <? 256) with false
    by (symmetry; apply Z.ltb_ge; lia).
  rewrite andb_false_r. reflexivity.
Qed.

(** C6. Reading the schedule attribute while the eight-window schedule is
    stored: the schedule is set, its serialisation takes 336 bytes, and
    the read raises [ValueError] instead of returning a payload. *)
Theorem on_read_schedule_eight_windows :
  truthy eight_windows = true /\
  len (encode (dumps eight_windows)) = 336 /\
  fst (@on_read sample_constants (@CHAR_SCHEDULE sample_constants)
         (peripheral_with eight_windows))
  = Raise ValueError.
Proof. repeat split. Qed.

(* ------------------------------------------------------------------ *)
(** ** ble_wrapper_stub: writes to the lock-command attribute *)

(** An empty write to the lock-command attribute is not dropped quietly:
    the handler leaves with [IndexError]. *)
Lemma on_write_lock_command_empty_raises :
  returns (fst (@on_write_lock_command sample_constants idle_logic accepting_backend
                  [] (peripheral_with office_hours))) = false /\
  fst (@on_write_lock_command sample_constants idle_logic accepting_backend
         [] (peripheral_with office_hours)) = Raise IndexError.
Proof. split; reflexivity. Qed.

(** C1. The handler on a zero-length write to the lock-command
    attribute: the lock state, the battery level and the unlock counter
    are unchanged and no notification is made, but the write is not
    dropped quietly: [data[0]], read only for the log line, raises
    [IndexError] to the caller. *)
Theorem on_write_lock_command_empty
    {constants : ble_constants} {logic : kurb_logic} {backend : ble_backend}
    (st : peripheral) :
  fst (on_write_lock_command [] st) = Raise IndexError /\
  lock_state (sim (snd (on_write_lock_command [] st))) = lock_state (sim st) /\
  battery (sim (snd (on_write_lock_command [] st))) = battery (sim st) /\
  unlock_counter (sim (snd (on_write_lock_command [] st))) = unlock_counter (sim st) /\
  notifications (snd (on_write_lock_command [] st)) = notifications st.
Proof.
  assert (H : on_write_lock_command [] st = (Raise IndexError, st)) by reflexivity.
  rewrite H. repeat split.
Qed.

(** Any other write is handed to the simulator undecoded; when the
    simulator returns, the lock state is notified, whatever the command
    byte was. *)
Lemma on_write_lock_command_forwarded
    {constants : ble_constants} {logic : kurb_logic} {backend : ble_backend}
    (first : byte) (more : bytes) (st : peripheral)
    (sim' : KurbSimulator) (payload : bytes) :
  sim_on_write CHAR_LOCK_COMMAND (first :: more) (sim st) = (Return tt, sim') ->
  bytes_of_int (lock_state sim') = Return payload ->
  sim (snd (on_write_lock_command (first :: more) st)) = sim' /\
  notifications (snd (on_write_lock_command (first :: more) st))
  = notifications st ++ [(CHAR_LOCK_STATE, payload)].
Proof.
  intros Hsim Hpayload. open_peripheral st.
  unfold on_write_lock_command. run_handler. cbn [bytes_first].
  rewrite Hsim, Hpayload.
  destruct (os_send_notification CHAR_LOCK_STATE payload). split; reflexivity.
Qed.

(* ------------------------------------------------------------------ *)
(** ** ble_wrapper_stub: notifications for simulator events *)

Section Events.
Context {constants : ble_constants} {backend : ble_backend}.

(** X23. Whatever the backend does, an event is first notified on the event
    attribute, with the event code as payload, and at most one call, on
    the lock-state attribute, follows. *)
Lemma on_logic_event_first_call (event_code : bytes) (st : peripheral) :
  exists later,
    notifications (snd (on_logic_event event_code st))
    = notifications st ++ (CHAR_EVENT, event_code) :: later /\
    (later = [] \/ exists payload, later = [(CHAR_LOCK_STATE, payload)]).
Proof.
  open_peripheral st. unfold on_logic_event. run_handler.
  destruct (os_send_notification CHAR_EVENT event_code) as [lines [[]|e]].
  - destruct (bytes_in event_code [[x01]; [x02]; [x09]]).
    + destruct (bytes_of_int (lock_state s)) as [payload|e].
      * destruct (os_send_notification CHAR_LOCK_STATE payload) as [lines' r].
        exists [(CHAR_LOCK_STATE, payload)].
        cbv [snd notifications]. rewrite <- app_assoc.
        split; [ reflexivity | right; now exists payload ].
      * exists []. split; [ reflexivity | now left ].
    + exists []. split; [ reflexivity | now left ].
  - exists []. split; [ reflexivity | now left ].
Qed.

Hypothesis accepted : forall uuid data, snd (os_send_notification uuid data) = Return tt.

Lemma on_logic_event_accepted (payload event_code : bytes) (st : peripheral) :
  bytes_of_int (lock_state (sim st)) = Return payload ->
  exists st',
    on_logic_event event_code st = (Return tt, st') /\
    sim st' = sim st /\
    notifications st' = notifications st ++ calls_for payload event_code.
Proof.
  intros Hpayload. open_peripheral st.
  unfold on_logic_event, calls_for. run_handler.
  pose proof (accepted CHAR_EVENT event_code) as H1.
  pose proof (accepted CHAR_LOCK_STATE payload) as H2.
  destruct (os_send_notification CHAR_EVENT event_code) as [lines r].
  cbn [snd] in H1. subst r.
  destruct (bytes_in event_code [[x01]; [x02]; [x09]]).
  - rewrite Hpayload.
    destruct (os_send_notification CHAR_LOCK_STATE payload) as [lines' r'].
    cbn [snd] in H2. subst r'.
    eexists. split; [ reflexivity | ].
    cbn [sim notifications]. rewrite <- app_assoc. split; reflexivity.
  - eexists. split; [ reflexivity | ]. split; reflexivity.
Qed.

End Events.

(** X19. With [send_notification] as the template leaves it, an event
    gets exactly one call, on the event attribute with the event code;
    that call raises, the handler ends there with [NotImplementedError],
    and the lock-state update is not attempted, whatever the code. *)
Lemma on_logic_event_template_backend {constants : ble_constants}
    (event_code : bytes) (st : peripheral) :
  fst (@on_logic_event constants template_backend event_code st)
  = Raise NotImplementedError /\
  notifications (snd (@on_logic_event constants template_backend event_code st))
  = notifications st ++ [(CHAR_EVENT, event_code)].
Proof. open_peripheral st. split; reflexivity. Qed.

(** One lock event, two notifications: the event code on the event
    attribute, then the lock state on the lock-state attribute. *)
Lemma on_logic_event_lock_event_two_calls :
  notifications
    (snd (@on_logic_event sample_constants accepting_backend [x01]
            (peripheral_with office_hours)))
  = [(@CHAR_EVENT sample_constants, [x01]);
     (@CHAR_LOCK_STATE sample_constants, [x01])].
Proof. reflexivity. Qed.

(* ------------------------------------------------------------------ *)
(** ** battery_engine: order of the tiers *)

(** X1. The classification is monotone: of two percentages, the lower one
    never gets the healthier tier. *)
Theorem classify_battery_monotone (p q : Z) (t u : BatteryTier) :
  p <= q ->
  classify_battery p = tier_label t ->
  classify_battery q = tier_label u ->
  severity u <= severity t.
Proof.
  unfold classify_battery. intros Hle Hp Hq.
  destruct (Z.leb_spec p 3), (Z.leb_spec p 10), (Z.leb_spec p 20),
           (Z.leb_spec q 3), (Z.leb_spec q 10), (Z.leb_spec q 20);
    try lia; destruct t; try discriminate Hp; destruct u; try discriminate Hq;
    simpl; lia.
Qed.

Lemma classify_battery_monotone_witness : severity Low <= severity Critical.
Proof.
  apply (classify_battery_monotone 5 15 Critical Low); [ lia | reflexivity | reflexivity ].
Defined.

(** X2. Two neighbouring percentages get different tiers exactly across
    the three boundaries 3|4, 10|11 and 20|21. *)
Theorem classify_battery_changes_at_boundaries (percent : Z) :
  classify_battery percent <> classify_battery (percent + 1)
  <-> percent = 3 \/ percent = 10 \/ percent = 20.
Proof.
  unfold classify_battery.
  destruct (Z.leb_spec percent 3), (Z.leb_spec percent 10), (Z.leb_spec percent 20),
           (Z.leb_spec (percent + 1) 3), (Z.leb_spec (percent + 1) 10),
           (Z.leb_spec (percent + 1) 20);
    try lia; split; intro Hdiff; try lia; try discriminate;
    try (exfalso; apply Hdiff; reflexivity).
Qed.

(* ------------------------------------------------------------------ *)
(** ** state_machine: the two predicates together *)

(** X3. No state is both locked and unlocked, and the states that are
    neither are exactly those other than 0 and 1: the two predicates are
    not each other's negation. *)
Theorem lock_predicates_exclusive (state : Z) :
  is_locked state && is_unlocked state = false /\
  (is_locked state = false /\ is_unlocked state = false
   <-> state <> 0 /\ state <> 1).
Proof.
  unfold is_locked, is_unlocked.
  destruct (Z.eqb_spec state 1), (Z.eqb_spec state 0); split; try reflexivity; try lia;
    split; intros [? ?]; try discriminate; try lia; split; try reflexivity; assumption.
Qed.

(* ------------------------------------------------------------------ *)
(** ** schedule_engine: every outcome of the parsers *)

(** X4. The parsers raise nothing but [TypeError] and [KeyError] on the
    keys they subscript, and on a schedule that is not a dict ([None], a
    number, a string, a list) both raise [TypeError]. *)
Theorem schedule_parsers_exceptions (schedule_json : value) :
  (forall e, parse_daily_limit schedule_json = Raise e ->
             e = TypeError \/ e = KeyError "daily_limit" \/ e = KeyError "max_unlocks") /\
  (forall e, parse_time_windows schedule_json = Raise e ->
             e = TypeError \/ e = KeyError "windows") /\
  ((forall entries, schedule_json <> JDict entries) ->
   parse_daily_limit schedule_json = Raise TypeError /\
   parse_time_windows schedule_json = Raise TypeError).
Proof.
  unfold parse_daily_limit, parse_time_windows, getitem, obind.
  split; [ | split ].
  - intros e.
    destruct schedule_json as [| | | | |entries]; try (intros [= <-]; now left).
    destruct (dict_get "daily_limit" entries) as [limit|]; [ | intros [= <-]; auto ].
    destruct limit as [| | | | |inner]; try (intros [= <-]; now left).
    destruct (dict_get "max_unlocks" inner); [ discriminate | intros [= <-]; auto ].
  - intros e.
    destruct schedule_json as [| | | | |entries]; try (intros [= <-]; now left).
    destruct (dict_get "windows" entries); [ discriminate | intros [= <-]; auto ].
  - intros Hnot.
    destruct schedule_json as [| | | | |entries]; try (split; reflexivity).
    exfalso. exact (Hnot entries eq_refl).
Qed.

Lemma schedule_parsers_exceptions_witness :
  parse_daily_limit (JList [office_hours]) = Raise TypeError /\
  parse_time_windows (JList [office_hours]) = Raise TypeError.
Proof.
  apply (schedule_parsers_exceptions (JList [office_hours])).
  intros entries H. discriminate H.
Defined.

(** X5. The shapes that the parsers accept: [parse_daily_limit] returns
    exactly on a dict whose ["daily_limit"] is a dict that has
    ["max_unlocks"], [parse_time_windows] exactly on a dict that has
    ["windows"]; neither looks at what the stored value is. *)
Theorem schedule_parsers_accept (schedule_json : value) :
  (returns (parse_daily_limit schedule_json) = true
   <-> exists entries inner stored,
         schedule_json = JDict entries /\
         dict_get "daily_limit" entries = Some (JDict inner) /\
         dict_get "max_unlocks" inner = Some stored) /\
  (returns (parse_time_windows schedule_json) = true
   <-> exists entries stored,
         schedule_json = JDict entries /\
         dict_get "windows" entries = Some stored).
Proof.
  unfold parse_daily_limit, parse_time_windows, getitem, obind.
  split; split.
  - destruct schedule_json as [| | | | |entries]; try discriminate.
    destruct (dict_get "daily_limit" entries) as [limit|] eqn:Hlimit; [ | discriminate ].
    destruct limit as [| | | | |inner]; try discriminate.
    destruct (dict_get "max_unlocks" inner) as [stored|] eqn:Hstored; [ | discriminate ].
    intros _. exists entries, inner, stored. repeat split; assumption.
  - intros (entries & inner & stored & -> & -> & ->). reflexivity.
  - destruct schedule_json as [| | | | |entries]; try discriminate.
    destruct (dict_get "windows" entries) as [stored|] eqn:Hstored; [ | discriminate ].
    intros _. exists entries, stored. split; [ reflexivity | assumption ].
  - intros (entries & stored & -> & ->). reflexivity.
Qed.

(* ------------------------------------------------------------------ *)
(** ** One-byte payloads *)

Lemma bytes_of_int_in_range (n : Z) :
  0 <= n < 256 ->
  exists b, bytes_of_int n = Return [b] /\ Z.of_N (Byte.to_N b) = n.
Proof.
  intros Hn. unfold bytes_of_int.
  replace ((0 <=? n) && (n <? 256)) with true
    by (symmetry; apply andb_true_iff; split; [ apply Z.leb_le | apply Z.ltb_lt ]; lia).
  destruct (Byte.of_N (Z.to_N n)) as [b|] eqn:Hb.
  - exists b. split; [ reflexivity | ].
    apply Byte.to_of_N in Hb. rewrite Hb. apply Z2N.id. lia.
  - apply Byte.of_N_None_iff in Hb. lia.
Qed.

Lemma bytes_of_int_out_of_range (n : Z) :
  ~ 0 <= n < 256 -> bytes_of_int n = Raise ValueError.
Proof.
  intros Hn. unfold bytes_of_int.
  destruct (Z.leb_spec 0 n), (Z.ltb_spec n 256); simpl; try reflexivity. lia.
Qed.

Lemma bytes_of_int_returned (n : Z) (p : bytes) :
  bytes_of_int n = Return p ->
  0 <= n < 256 /\ exists b, p = [b] /\ Z.of_N (Byte.to_N b) = n.
Proof.
  intros Hp.
  assert (Hn : 0 <= n < 256).
  { destruct (Z.leb_spec 0 n), (Z.ltb_spec n 256); try lia;
      rewrite bytes_of_int_out_of_range in Hp by lia; discriminate Hp. }
  split; [ exact Hn | ].
  destruct (bytes_of_int_in_range n Hn) as (b & Hb & Hval).
  exists b. split; [ congruence | exact Hval ].
Qed.

Lemma bytes_of_int_raised (n : Z) (e : exn) :
  bytes_of_int n = Raise e -> e = ValueError /\ ~ 0 <= n < 256.
Proof.
  intros He.
  destruct (Z.leb_spec 0 n), (Z.ltb_spec n 256);
    try (rewrite bytes_of_int_out_of_range in He by lia; split; [ congruence | lia ]).
  destruct (bytes_of_int_in_range n) as (b & Hb & _); [ lia | congruence ].
Qed.

(* ------------------------------------------------------------------ *)
(** ** ble_wrapper_stub: what a read returns *)

Lemma on_read_keeps_sim {constants : ble_constants} (uuid : string) (st : peripheral) :
  sim (snd (on_read uuid st)) = sim st.
Proof. open_peripheral st. unfold on_read. run_handler. repeat branch; reflexivity. Qed.

Lemma on_read_depends_on_sim {constants : ble_constants}
    (uuid : string) (st1 st2 : peripheral) :
  sim st1 = sim st2 -> fst (on_read uuid st1) = fst (on_read uuid st2).
Proof.
  intros Hsim. open_peripheral st1. destruct st2 as [s2 values2 connected2 printed2 calls2].
  cbn [sim] in Hsim. subst s2.
  unfold on_read. run_handler. repeat branch; reflexivity.
Qed.

(** X6. A read of the lock-state attribute, and of the battery attribute,
    returns a single byte that decodes ([data[0]]) to the simulator's
    field when the field lies in 0..255, and raises [ValueError] when it
    does not. *)
Theorem on_read_state_bytes {constants : ble_constants} (st : peripheral) :
  CHAR_BATTERY <> CHAR_LOCK_STATE ->
  (0 <= lock_state (sim st) < 256 ->
   exists b, fst (on_read CHAR_LOCK_STATE st) = Return [b] /\
             bytes_first [b] = Return (lock_state (sim st))) /\
  (~ 0 <= lock_state (sim st) < 256 ->
   fst (on_read CHAR_LOCK_STATE st) = Raise ValueError) /\
  (0 <= battery (sim st) < 256 ->
   exists b, fst (on_read CHAR_BATTERY st) = Return [b] /\
             bytes_first [b] = Return (battery (sim st))) /\
  (~ 0 <= battery (sim st) < 256 ->
   fst (on_read CHAR_BATTERY st) = Raise ValueError).
Proof.
  intros Hne. apply String.eqb_neq in Hne.
  open_peripheral st. unfold on_read. run_handler.
  rewrite !String.eqb_refl, Hne.
  repeat split.
  - intros Hin. destruct (bytes_of_int_in_range _ Hin) as (b & -> & Hval).
    exists b. split; [ reflexivity | ]. cbn [bytes_first]. now rewrite Hval.
  - intros Hout. now rewrite bytes_of_int_out_of_range.
  - intros Hin. destruct (bytes_of_int_in_range _ Hin) as (b & -> & Hval).
    exists b. split; [ reflexivity | ]. cbn [bytes_first]. now rewrite Hval.
  - intros Hout. now rewrite bytes_of_int_out_of_range.
Qed.

Lemma on_read_state_bytes_witness :
  (exists b, fst (@on_read sample_constants (@CHAR_LOCK_STATE sample_constants)
                    (peripheral_with office_hours)) = Return [b] /\
             bytes_first [b] = Return 1) /\
  (exists b, fst (@on_read sample_constants (@CHAR_BATTERY sample_constants)
                    (peripheral_with office_hours)) = Return [b] /\
             bytes_first [b] = Return 87).
Proof.
  split.
  - apply (@on_read_state_bytes sample_constants (peripheral_with office_hours));
      [ intro H; discriminate H | cbn; lia ].
  - apply (@on_read_state_bytes sample_constants (peripheral_with office_hours));
      [ intro H; discriminate H | cbn; lia ].
Defined.

(** X7. Reads can be repeated and mixed freely: what a read of one
    attribute returns is the same after any other read as before it. *)
Theorem on_read_repeatable {constants : ble_constants}
    (uuid other : string) (st : peripheral) :
  fst (on_read uuid (snd (on_read other st))) = fst (on_read uuid st).
Proof. apply on_read_depends_on_sim, on_read_keeps_sim. Qed.

(* ------------------------------------------------------------------ *)
(** ** The serialised schedule *)

Lemma length_encode (s : string) : List.length (encode s) = String.length s.
Proof.
  unfold encode, list_byte_of_string. rewrite length_map.
  induction s as [|c rest IH]; [ reflexivity | cbn; now rewrite IH ].
Qed.

Lemma to_N_byte_of_ascii (c : ascii) : Byte.to_N (byte_of_ascii c) = N_of_ascii c.
Proof. apply Byte.to_of_N. symmetry. apply byte_of_ascii_via_N. Qed.

Lemma printable_encode (s : string) : forallb printable_byte (encode s) = printable s.
Proof.
  unfold encode, list_byte_of_string.
  induction s as [|c rest IH]; [ reflexivity | ].
  cbn [list_ascii_of_string map forallb printable]. rewrite IH.
  unfold printable_byte, printable_char. now rewrite to_N_byte_of_ascii.
Qed.

Lemma printable_append (a b : string) :
  printable (String.append a b) = printable a && printable b.
Proof.
  induction a as [|c rest IH]; [ reflexivity | ].
  cbn [String.append printable]. rewrite IH. apply andb_assoc.
Qed.

Lemma printable_escape_char (c : ascii) : printable (escape_char c) = true.
Proof. destruct c as [[] [] [] [] [] [] [] []]; reflexivity. Qed.

Lemma printable_escape (s : string) : printable (escape s) = true.
Proof.
  induction s as [|c rest IH]; [ reflexivity | ].
  cbn [escape]. now rewrite printable_append, printable_escape_char, IH.
Qed.

Lemma printable_quoted (s : string) : printable (quoted s) = true.
Proof.
  unfold quoted. cbn [printable]. rewrite printable_append, printable_escape.
  reflexivity.
Qed.

Lemma printable_join_comma (parts : list string) :
  Forall (fun part => printable part = true) parts ->
  printable (join_comma parts) = true.
Proof.
  induction 1 as [|part rest Hpart _ IH]; [ reflexivity | ].
  cbn [join_comma]. destruct rest as [|next rest]; [ exact Hpart | ].
  rewrite !printable_append, Hpart, IH. reflexivity.
Qed.

Lemma printable_uint (d : Decimal.uint) : printable (NilEmpty.string_of_uint d) = true.
Proof. induction d; cbn [NilEmpty.string_of_uint printable]; rewrite ?IHd; reflexivity. Qed.

Lemma printable_int (d : Decimal.int) : printable (NilZero.string_of_int d) = true.
Proof.
  destruct d as [d|d]; cbn [NilZero.string_of_int printable];
    unfold NilZero.string_of_uint;
    (destruct d; [ reflexivity | apply printable_uint .. ]).
Qed.

(** What [json.dumps] writes is printable ASCII throughout. *)
Lemma printable_dumps : forall obj : value, printable (dumps obj) = true.
Proof.
  fix IH 1. intros [ | [|] | n | s | items | entries ]; cbn [dumps].
  - reflexivity.
  - reflexivity.
  - reflexivity.
  - apply printable_int.
  - apply printable_quoted.
  - rewrite !printable_append, printable_join_comma; [ reflexivity | ].
    revert items. fix IHitems 1. intros [|item rest]; cbn [map].
    + constructor.
    + constructor; [ apply IH | apply IHitems ].
  - rewrite !printable_append, printable_join_comma; [ reflexivity | ].
    revert entries. fix IHentries 1. intros [|[key item] rest]; cbn [map fst snd].
    + constructor.
    + constructor; [ | apply IHentries ].
      rewrite !printable_append, printable_quoted, IH. reflexivity.
Qed.

(** [json.dumps] never writes the empty string. *)
Lemma dumps_nonempty (obj : value) : (1 <= String.length (dumps obj))%nat.
Proof.
  destruct obj as [ | [|] | n | s | items | entries ]; cbn; try lia.
  unfold NilZero.string_of_int, NilZero.string_of_uint.
  destruct (Z.to_int n) as [d|d]; [ destruct d; cbn; lia | cbn; lia ].
Qed.

Lemma len_dumps_positive (obj : value) : 1 <= len (encode (dumps obj)).
Proof. unfold len. rewrite length_encode. pose proof (dumps_nonempty obj). lia. Qed.

(* ------------------------------------------------------------------ *)
(** ** ble_wrapper_stub: the schedule attribute *)

Section ScheduleRead.
Context {constants : ble_constants}.
Hypothesis not_lock_state : CHAR_SCHEDULE <> CHAR_LOCK_STATE.
Hypothesis not_battery : CHAR_SCHEDULE <> CHAR_BATTERY.
Hypothesis not_next_unlock : CHAR_SCHEDULE <> CHAR_NEXT_UNLOCK.

Lemma on_read_schedule_outcome (st : peripheral) :
  fst (on_read CHAR_SCHEDULE st)
  = if truthy (schedule (sim st))
    then match bytes_of_int (len (encode (dumps (schedule (sim st))))) with
         | Return prefix => Return (prefix ++ encode (dumps (schedule (sim st))))
         | Raise e => Raise e
         end
    else Return [x00].
Proof.
  pose proof not_lock_state as H1. pose proof not_battery as H2.
  pose proof not_next_unlock as H3.
  apply String.eqb_neq in H1, H2, H3.
  open_peripheral st. unfold on_read. run_handler.
  rewrite H1, H2, H3, String.eqb_refl.
  destruct (truthy (schedule s)); [ | reflexivity ].
  destruct (bytes_of_int (len (encode (dumps (schedule s))))); reflexivity.
Qed.

(** X8. When a read of the schedule attribute returns for a set
    schedule, the payload is one length byte followed by the serialised
    schedule, the length byte counts exactly the bytes that follow, and it
    is never 0x00: the payload cannot be taken for the one of an unset
    schedule. *)
Theorem on_read_schedule_framing (st : peripheral) (payload : bytes) :
  truthy (schedule (sim st)) = true ->
  fst (on_read CHAR_SCHEDULE st) = Return payload ->
  exists b,
    payload = b :: encode (dumps (schedule (sim st))) /\
    Z.of_N (Byte.to_N b) = len (List.tl payload) /\
    b <> x00.
Proof.
  intros Hset Hread. rewrite on_read_schedule_outcome, Hset in Hread.
  destruct (bytes_of_int (len (encode (dumps (schedule (sim st)))))) as [prefix|e] eqn:Hlen;
    [ | discriminate Hread ].
  apply bytes_of_int_returned in Hlen. destruct Hlen as (_ & b & -> & Hb).
  injection Hread as <-. exists b. cbn [app List.tl].
  split; [ reflexivity | ]. split; [ exact Hb | ].
  intros ->. pose proof (len_dumps_positive (schedule (sim st))) as Hpos.
  rewrite <- Hb in Hpos. cbn in Hpos. lia.
Qed.

(** X9. A read of the schedule attribute returns exactly when the
    schedule is unset or its serialisation is at most 255 bytes long. *)
Theorem on_read_schedule_returns (st : peripheral) :
  returns (fst (on_read CHAR_SCHEDULE st)) = true
  <-> truthy (schedule (sim st)) = false
      \/ len (encode (dumps (schedule (sim st)))) <= 255.
Proof.
  rewrite on_read_schedule_outcome.
  destruct (truthy (schedule (sim st))).
  - destruct (bytes_of_int (len (encode (dumps (schedule (sim st)))))) as [prefix|e] eqn:Hlen.
    + apply bytes_of_int_returned in Hlen. split; [ intros _; right; lia | reflexivity ].
    + apply bytes_of_int_raised in Hlen. destruct Hlen as [_ Hout].
      pose proof (len_dumps_positive (schedule (sim st))).
      split; [ discriminate | intros [Hunset|Hshort]; [ discriminate Hunset | lia ] ].
  - split; [ intros _; now left | reflexivity ].
Qed.

(** X10. The serialised schedule that a read returns after the length
    byte consists of printable ASCII only (0x20..0x7E). *)
Theorem on_read_schedule_printable (st : peripheral) (payload : bytes) :
  truthy (schedule (sim st)) = true ->
  fst (on_read CHAR_SCHEDULE st) = Return payload ->
  forallb printable_byte (List.tl payload) = true.
Proof.
  intros Hset Hread. rewrite on_read_schedule_outcome, Hset in Hread.
  destruct (bytes_of_int (len (encode (dumps (schedule (sim st)))))) as [prefix|e] eqn:Hlen;
    [ | discriminate Hread ].
  apply bytes_of_int_returned in Hlen. destruct Hlen as (_ & b & -> & _).
  injection Hread as <-. cbn [app List.tl].
  rewrite printable_encode. apply printable_dumps.
Qed.

End ScheduleRead.

Lemma on_read_schedule_framing_witness :
  exists b,
    x54 :: encode (dumps office_hours) = b :: encode (dumps office_hours) /\
    Z.of_N (Byte.to_N b) = len (List.tl (x54 :: encode (dumps office_hours))) /\
    b <> x00.
Proof.
  apply (@on_read_schedule_framing sample_constants)
    with (st := peripheral_with office_hours);
    try (intro H; discriminate H); reflexivity.
Defined.

Lemma on_read_schedule_returns_witness :
  returns (fst (@on_read sample_constants (@CHAR_SCHEDULE sample_constants)
                  (peripheral_with eight_windows))) = true
  <-> truthy eight_windows = false \/ len (encode (dumps eight_windows)) <= 255.
Proof.
  apply (@on_read_schedule_returns sample_constants);
    intro H; discriminate H.
Defined.

Lemma on_read_schedule_printable_witness :
  forallb printable_byte (List.tl (x54 :: encode (dumps office_hours))) = true.
Proof.
  apply (@on_read_schedule_printable sample_constants)
    with (st := peripheral_with office_hours);
    try (intro H; discriminate H); reflexivity.
Defined.

(* ------------------------------------------------------------------ *)
(** ** ble_wrapper_stub: what a write does *)

Section Writes.
Context {constants : ble_constants} {logic : kurb_logic} {backend : ble_backend}.

(** X11. When the simulator accepts a non-empty lock command, exactly one
    notification is attempted, on the lock-state attribute, and it
    carries the lock state as the simulator left it, not as it was
    before the write; the handler ends as the backend's
    [send_notification] does. *)
Theorem on_write_lock_command_notifies_new_state
    (first : byte) (more : bytes) (st : peripheral)
    (sim' : KurbSimulator) (payload : bytes) :
  sim_on_write CHAR_LOCK_COMMAND (first :: more) (sim st) = (Return tt, sim') ->
  bytes_of_int (lock_state sim') = Return payload ->
  fst (on_write_lock_command (first :: more) st)
  = snd (os_send_notification CHAR_LOCK_STATE payload) /\
  sim (snd (on_write_lock_command (first :: more) st)) = sim' /\
  notifications (snd (on_write_lock_command (first :: more) st))
  = notifications st ++ [(CHAR_LOCK_STATE, payload)].
Proof.
  intros Hsim Hpayload. open_peripheral st.
  unfold on_write_lock_command. run_handler. cbn [bytes_first].
  rewrite Hsim, Hpayload.
  destruct (os_send_notification CHAR_LOCK_STATE payload). repeat split.
Qed.

(** X12. A lock command that fails after the simulator has seen it is
    not rolled back and not notified: when the simulator raises, the
    handler raises the same exception; when the simulator returns with a
    lock state outside 0..255, the handler raises [ValueError]; either
    way the simulator stays as its [on_write] left it. *)
Theorem on_write_lock_command_failure
    (first : byte) (more : bytes) (st : peripheral) (sim' : KurbSimulator) :
  (forall e,
     sim_on_write CHAR_LOCK_COMMAND (first :: more) (sim st) = (Raise e, sim') ->
     fst (on_write_lock_command (first :: more) st) = Raise e /\
     sim (snd (on_write_lock_command (first :: more) st)) = sim' /\
     notifications (snd (on_write_lock_command (first :: more) st)) = notifications st) /\
  (sim_on_write CHAR_LOCK_COMMAND (first :: more) (sim st) = (Return tt, sim') ->
   ~ 0 <= lock_state sim' < 256 ->
   fst (on_write_lock_command (first :: more) st) = Raise ValueError /\
   sim (snd (on_write_lock_command (first :: more) st)) = sim' /\
   notifications (snd (on_write_lock_command (first :: more) st)) = notifications st).
Proof.
  open_peripheral st. unfold on_write_lock_command. run_handler. cbn [bytes_first].
  split.
  - intros e ->. repeat split.
  - intros -> Hout. rewrite bytes_of_int_out_of_range by exact Hout. repeat split.
Qed.

(** X13. Schedule and time-sync writes are passed to the simulator as
    they come, empty payloads included: the handler ends as the
    simulator's [on_write] does, leaves the simulator as [on_write] left
    it, and never notifies. *)
Theorem on_write_schedule_timesync_forward (data : bytes) (st : peripheral) :
  (fst (on_write_schedule data st) = fst (sim_on_write CHAR_SCHEDULE data (sim st)) /\
   sim (snd (on_write_schedule data st)) = snd (sim_on_write CHAR_SCHEDULE data (sim st)) /\
   notifications (snd (on_write_schedule data st)) = notifications st) /\
  (fst (on_write_timesync data st) = fst (sim_on_write CHAR_TIMESYNC data (sim st)) /\
   sim (snd (on_write_timesync data st)) = snd (sim_on_write CHAR_TIMESYNC data (sim st)) /\
   notifications (snd (on_write_timesync data st)) = notifications st).
Proof.
  open_peripheral st. unfold on_write_schedule, on_write_timesync. run_handler.
  destruct (sim_on_write CHAR_SCHEDULE data s) as [[[]|e] s1];
    destruct (sim_on_write CHAR_TIMESYNC data s) as [[[]|e'] s2];
    repeat split.
Qed.

(** X14. After a lock command that returned, the last notification is
    the lock-state one and a read of the lock-state attribute returns
    the very payload that was notified. *)
Theorem on_write_lock_command_then_read (data : bytes) (st st' : peripheral) :
  on_write_lock_command data st = (Return tt, st') ->
  exists payload,
    notifications st' = notifications st ++ [(CHAR_LOCK_STATE, payload)] /\
    fst (on_read CHAR_LOCK_STATE st') = Return payload.
Proof.
  open_peripheral st. unfold on_write_lock_command. run_handler.
  destruct data as [|first more]; cbn [bytes_first]; [ discriminate | ].
  destruct (sim_on_write CHAR_LOCK_COMMAND (first :: more) s) as [[[]|e] s1];
    [ | discriminate ].
  destruct (bytes_of_int (lock_state s1)) as [payload|e] eqn:Hpayload; [ | discriminate ].
  destruct (os_send_notification CHAR_LOCK_STATE payload) as [lines [[]|e]];
    [ | discriminate ].
  intros [= <-]. exists payload. split; [ reflexivity | ].
  unfold on_read. run_handler. now rewrite String.eqb_refl, Hpayload.
Qed.

(** X15. No handler touches the characteristic store or the connection
    flag that [__init__] set: the stored values are never refreshed. *)
Theorem handlers_keep_char_values (uuid : string) (data : bytes) (st : peripheral) :
  let untouched (st' : peripheral) :=
    char_values st' = char_values st /\ device_connected st' = device_connected st in
  untouched (snd (on_read uuid st)) /\
  untouched (snd (on_write_lock_command data st)) /\
  untouched (snd (on_write_schedule data st)) /\
  untouched (snd (on_write_timesync data st)) /\
  untouched (snd (on_logic_event data st)).
Proof.
  open_peripheral st.
  unfold on_read, on_write_lock_command, on_write_schedule, on_write_timesync,
    on_logic_event.
  run_handler. repeat split; repeat call_outcome; reflexivity.
Qed.

End Writes.

Lemma on_write_lock_command_notifies_new_state_witness :
  fst (@on_write_lock_command sample_constants unlocking_logic accepting_backend
         [x10] (peripheral_with office_hours)) = Return tt /\
  sim (snd (@on_write_lock_command sample_constants unlocking_logic accepting_backend
              [x10] (peripheral_with office_hours)))
  = {| lock_state := 0; battery := 87; schedule := office_hours; unlock_counter := 2 |} /\
  notifications
    (snd (@on_write_lock_command sample_constants unlocking_logic accepting_backend
            [x10] (peripheral_with office_hours)))
  = notifications (peripheral_with office_hours)
    ++ [(@CHAR_LOCK_STATE sample_constants, [x00])].
Proof.
  apply (@on_write_lock_command_notifies_new_state
           sample_constants unlocking_logic accepting_backend); reflexivity.
Defined.

Lemma on_write_lock_command_failure_witness :
  fst (@on_write_lock_command sample_constants refusing_logic accepting_backend
         [x02] (peripheral_with office_hours)) = Raise (OtherError "RuntimeError") /\
  fst (@on_write_lock_command sample_constants idle_logic accepting_backend
         [x02]
         {| sim := {| lock_state := 300; battery := 87; schedule := JNull;
                      unlock_counter := 0 |};
            char_values := []; device_connected := true;
            stdout := []; notifications := [] |}) = Raise ValueError.
Proof.
  split.
  - apply (@on_write_lock_command_failure sample_constants refusing_logic
             accepting_backend x02 [] (peripheral_with office_hours)
             (simulator_with office_hours)).
    reflexivity.
  - apply (@on_write_lock_command_failure sample_constants idle_logic
             accepting_backend x02 []
             {| sim := {| lock_state := 300; battery := 87; schedule := JNull;
                          unlock_counter := 0 |};
                char_values := []; device_connected := true;
                stdout := []; notifications := [] |}
             {| lock_state := 300; battery := 87; schedule := JNull;
                unlock_counter := 0 |});
      [ reflexivity | cbn; lia ].
Defined.

Lemma on_write_lock_command_then_read_witness :
  exists payload,
    [(@CHAR_LOCK_STATE sample_constants, [x00])]
    = notifications (peripheral_with office_hours)
      ++ [(@CHAR_LOCK_STATE sample_constants, payload)] /\
    fst (@on_read sample_constants (@CHAR_LOCK_STATE sample_constants)
           (snd (@on_write_lock_command sample_constants unlocking_logic
                   accepting_backend [x10] (peripheral_with office_hours))))
    = Return payload.
Proof.
  apply (@on_write_lock_command_then_read sample_constants unlocking_logic
           accepting_backend [x10] (peripheral_with office_hours)
           (snd (@on_write_lock_command sample_constants unlocking_logic
                   accepting_backend [x10] (peripheral_with office_hours)))).
  reflexivity.
Defined.

(** X16. With [send_notification] as the template leaves it, a write to
    the lock-command attribute never returns: whatever the payload and
    whatever the simulator does, the handler ends in an exception. *)
Theorem on_write_lock_command_template_never_returns
    {constants : ble_constants} {logic : kurb_logic}
    (data : bytes) (st : peripheral) :
  returns (fst (@on_write_lock_command constants logic template_backend data st)) = false.
Proof.
  open_peripheral st. unfold on_write_lock_command. run_handler.
  destruct data as [|first more]; cbn [bytes_first]; [ reflexivity | ].
  destruct (sim_on_write CHAR_LOCK_COMMAND (first :: more) s) as [[[]|e] s1];
    [ | reflexivity ].
  destruct (bytes_of_int (lock_state s1)); reflexivity.
Qed.

(* ------------------------------------------------------------------ *)
(** ** ble_wrapper_stub: more on event notifications *)

Lemma byte_eqb_eq (a b : byte) : byte_eqb a b = true <-> a = b.
Proof.
  unfold byte_eqb. rewrite N.eqb_eq. split; [ | now intros -> ].
  intros H. apply (f_equal Byte.of_N) in H. rewrite !Byte.of_to_N in H.
  now injection H.
Qed.

Lemma bytes_eqb_eq (a b : bytes) : bytes_eqb a b = true <-> a = b.
Proof.
  revert b. induction a as [|x a IH]; intros [|y b]; cbn [bytes_eqb];
    try (split; [ discriminate | discriminate ]); [ now split | ].
  rewrite andb_true_iff, byte_eqb_eq, IH. split.
  - now intros [-> ->].
  - now intros [= -> ->].
Qed.

Lemma lock_event_codes (event_code : bytes) :
  bytes_in event_code [[x01]; [x02]; [x09]] = true
  <-> event_code = [x01] \/ event_code = [x02] \/ event_code = [x09].
Proof.
  unfold bytes_in. cbn [existsb]. rewrite !orb_true_iff, !bytes_eqb_eq.
  split; [ intros [H|[H|[H|H]]]; auto; discriminate H | intros [H|[H|H]]; auto ].
Qed.

(** C5 (amended). For every event the handler calls
    [send_notification] once on the event attribute, with the event code.
    When that call returns, the code is one of the one-byte codes 0x01,
    0x02, 0x09 and the lock state fits a byte, a second call follows, on
    the lock-state attribute with the lock-state byte.  In every other
    case (the first call raises, another code, a lock state outside
    0..255) the first call is the only one.  The calls of an event come
    after all earlier calls, the event-attribute one first. *)
Theorem on_logic_event_notifications
    {constants : ble_constants} {backend : ble_backend}
    (event_code : bytes) (st : peripheral) :
  (forall payload,
     snd (os_send_notification CHAR_EVENT event_code) = Return tt ->
     event_code = [x01] \/ event_code = [x02] \/ event_code = [x09] ->
     bytes_of_int (lock_state (sim st)) = Return payload ->
     notifications (snd (on_logic_event event_code st))
     = notifications st ++ [(CHAR_EVENT, event_code); (CHAR_LOCK_STATE, payload)]) /\
  (returns (snd (os_send_notification CHAR_EVENT event_code)) = false \/
   ~ (event_code = [x01] \/ event_code = [x02] \/ event_code = [x09]) \/
   returns (bytes_of_int (lock_state (sim st))) = false ->
   notifications (snd (on_logic_event event_code st))
   = notifications st ++ [(CHAR_EVENT, event_code)]).
Proof.
  open_peripheral st. split.
  - intros payload Hfirst Hcode Hpayload. apply lock_event_codes in Hcode.
    unfold on_logic_event. run_handler.
    destruct (os_send_notification CHAR_EVENT event_code) as [lines first] eqn:Hsend.
    cbn [snd] in Hfirst. subst first. rewrite Hcode, Hpayload.
    destruct (os_send_notification CHAR_LOCK_STATE payload) as [lines' outcome].
    rewrite <- app_assoc. reflexivity.
  - intros Hother. unfold on_logic_event. run_handler.
    destruct (os_send_notification CHAR_EVENT event_code) as [lines [[]|raised]] eqn:Hsend;
      [ | reflexivity ].
    destruct (bytes_in event_code [[x01]; [x02]; [x09]]) eqn:Hcode; [ | reflexivity ].
    destruct (bytes_of_int (lock_state s)) as [payload|raised] eqn:Hpayload;
      [ | reflexivity ].
    exfalso. cbn [snd returns] in Hother. destruct Hother as [Hfirst|[Hnot|Hbyte]].
    + discriminate Hfirst.
    + apply Hnot, lock_event_codes, Hcode.
    + discriminate Hbyte.
Qed.

Lemma on_logic_event_notifications_witness :
  notifications
    (snd (@on_logic_event sample_constants accepting_backend [x02]
            (peripheral_with office_hours)))
  = notifications (peripheral_with office_hours)
    ++ [(@CHAR_EVENT sample_constants, [x02]);
        (@CHAR_LOCK_STATE sample_constants, [x01])] /\
  notifications
    (snd (@on_logic_event sample_constants template_backend [x02]
            (peripheral_with office_hours)))
  = notifications (peripheral_with office_hours)
    ++ [(@CHAR_EVENT sample_constants, [x02])].
Proof.
  split.
  - apply (@on_logic_event_notifications sample_constants accepting_backend [x02]
             (peripheral_with office_hours));
      [ reflexivity | right; left; reflexivity | reflexivity ].
  - apply (@on_logic_event_notifications sample_constants template_backend [x02]
             (peripheral_with office_hours)).
    left. reflexivity.
Defined.

(** X17. The event handler only reads the simulator: with a
    [send_notification] that transmits and does nothing else to the
    peripheral, the simulator after an event is the one before it,
    whether the handler returns or raises. *)
Theorem on_logic_event_keeps_sim {constants : ble_constants} {backend : ble_backend}
    (event_code : bytes) (st : peripheral) :
  sim (snd (on_logic_event event_code st)) = sim st.
Proof.
  open_peripheral st. unfold on_logic_event. run_handler.
  repeat call_outcome; reflexivity.
Qed.

(** X18. With a backend that accepts every notification, the lock-state
    update follows the event notification exactly for the one-byte codes
    0x01, 0x02 and 0x09; every other code, the empty one and longer ones
    that begin with such a byte included, is notified on the event
    attribute only. *)
Theorem on_logic_event_lock_codes {constants : ble_constants} {backend : ble_backend}
    (payload event_code : bytes) (st : peripheral) :
  (forall uuid data, snd (os_send_notification uuid data) = Return tt) ->
  bytes_of_int (lock_state (sim st)) = Return payload ->
  (event_code = [x01] \/ event_code = [x02] \/ event_code = [x09] ->
   notifications (snd (on_logic_event event_code st))
   = notifications st ++ [(CHAR_EVENT, event_code); (CHAR_LOCK_STATE, payload)]) /\
  (~ (event_code = [x01] \/ event_code = [x02] \/ event_code = [x09]) ->
   notifications (snd (on_logic_event event_code st))
   = notifications st ++ [(CHAR_EVENT, event_code)]).
Proof.
  intros Haccepted Hpayload.
  destruct (on_logic_event_accepted Haccepted payload event_code st Hpayload)
    as (st' & Hrun & _ & Hcalls).
  rewrite Hrun. cbn [snd]. rewrite Hcalls. unfold calls_for.
  split; intros Hcode.
  - apply lock_event_codes in Hcode. now rewrite Hcode.
  - destruct (bytes_in event_code [[x01]; [x02]; [x09]]) eqn:Hin; [ | reflexivity ].
    apply lock_event_codes in Hin. contradiction.
Qed.

Lemma on_logic_event_lock_codes_witness :
  notifications
    (snd (@on_logic_event sample_constants accepting_backend [x09]
            (peripheral_with office_hours)))
  = notifications (peripheral_with office_hours)
    ++ [(@CHAR_EVENT sample_constants, [x09]);
        (@CHAR_LOCK_STATE sample_constants, [x01])] /\
  notifications
    (snd (@on_logic_event sample_constants accepting_backend [x01; x00]
            (peripheral_with office_hours)))
  = notifications (peripheral_with office_hours)
    ++ [(@CHAR_EVENT sample_constants, [x01; x00])].
Proof.
  split.
  - apply (@on_logic_event_lock_codes sample_constants accepting_backend [x01] [x09]
             (peripheral_with office_hours));
      [ intros uuid data; reflexivity | reflexivity | right; right; reflexivity ].
  - apply (@on_logic_event_lock_codes sample_constants accepting_backend [x01]
             [x01; x00] (peripheral_with office_hours));
      [ intros uuid data; reflexivity | reflexivity
      | intros [H|[H|H]]; discriminate H ].
Defined.

(* ------------------------------------------------------------------ *)
(** ** ble_wrapper_stub: construction and the entry point *)

(** X20. [__init__] succeeds exactly when the fresh simulator's lock
    state and battery level both fit a byte; otherwise the constructor
    raises. *)
Theorem init_returns_iff {constants : ble_constants} (fresh : KurbSimulator) :
  returns (init fresh) = true
  <-> 0 <= lock_state fresh < 256 /\ 0 <= battery fresh < 256.
Proof.
  unfold init, obind. split.
  - destruct (bytes_of_int (lock_state fresh)) eqn:Hls; [ | discriminate ].
    destruct (bytes_of_int (battery fresh)) eqn:Hbat; [ | discriminate ].
    intros _. apply bytes_of_int_returned in Hls, Hbat. tauto.
  - intros [Hls Hbat].
    destruct (bytes_of_int_in_range _ Hls) as (b1 & -> & _).
    destruct (bytes_of_int_in_range _ Hbat) as (b2 & -> & _).
    reflexivity.
Qed.

(** X21. Right after construction the characteristic store agrees with
    the read handler: for the lock-state, battery and next-unlock
    attributes the stored value is the payload that a read returns. *)
Theorem init_store_agrees_with_reads {constants : ble_constants}
    (fresh : KurbSimulator) (ble : peripheral) (uuid : string) :
  CHAR_BATTERY <> CHAR_LOCK_STATE ->
  CHAR_NEXT_UNLOCK <> CHAR_LOCK_STATE ->
  CHAR_NEXT_UNLOCK <> CHAR_BATTERY ->
  init fresh = Return ble ->
  uuid = CHAR_LOCK_STATE \/ uuid = CHAR_BATTERY \/ uuid = CHAR_NEXT_UNLOCK ->
  exists payload,
    stored_value uuid (char_values ble) = Some payload /\
    fst (on_read uuid ble) = Return payload.
Proof.
  intros H1 H2 H3 Hinit Huuid.
  pose proof H1 as H1'. pose proof H2 as H2'. pose proof H3 as H3'.
  apply String.eqb_neq in H1, H2, H3.
  apply not_eq_sym, String.eqb_neq in H1', H2', H3'.
  unfold init, obind in Hinit.
  destruct (bytes_of_int (lock_state fresh)) as [ls|] eqn:Hls; [ | discriminate Hinit ].
  destruct (bytes_of_int (battery fresh)) as [bat|] eqn:Hbat; [ | discriminate Hinit ].
  injection Hinit as <-.
  unfold on_read, stored_value. run_handler. cbn [fold_left fst snd].
  destruct Huuid as [ -> | [ -> | -> ] ].
  - rewrite !String.eqb_refl, ?H1, ?H2. cbv beta iota zeta. rewrite Hls. now exists ls.
  - rewrite !String.eqb_refl, ?H1, ?H3. cbv beta iota zeta. rewrite Hbat. now exists bat.
  - rewrite !String.eqb_refl, ?H2, ?H3. cbv beta iota zeta. now eexists.
Qed.

Lemma init_store_agrees_with_reads_witness :
  exists payload,
    stored_value (@CHAR_BATTERY sample_constants)
      [(@CHAR_LOCK_STATE sample_constants, [x01]);
       (@CHAR_BATTERY sample_constants, [x57]);
       (@CHAR_NEXT_UNLOCK sample_constants, [x00; x00; x00; x00])] = Some payload /\
    fst (@on_read sample_constants (@CHAR_BATTERY sample_constants)
           {| sim := simulator_with office_hours;
              char_values :=
                [(@CHAR_LOCK_STATE sample_constants, [x01]);
                 (@CHAR_BATTERY sample_constants, [x57]);
                 (@CHAR_NEXT_UNLOCK sample_constants, [x00; x00; x00; x00])];
              device_connected := false;
              stdout := [];
              notifications := [] |}) = Return payload.
Proof.
  apply (@init_store_agrees_with_reads sample_constants (simulator_with office_hours)
           {| sim := simulator_with office_hours;
              char_values :=
                [(@CHAR_LOCK_STATE sample_constants, [x01]);
                 (@CHAR_BATTERY sample_constants, [x57]);
                 (@CHAR_NEXT_UNLOCK sample_constants, [x00; x00; x00; x00])];
              device_connected := false;
              stdout := [];
              notifications := [] |}
           (@CHAR_BATTERY sample_constants));
    try (intro H; discriminate H);
    [ reflexivity | right; left; reflexivity ].
Defined.


